(** * Criterion.h: epoch-level criterion accumulation

    A shallow embedding of [Source/SGDLib/Criterion.h]: the value type
    [EpochCriterion] (a pair of a [double] aggregate and a [size_t] sample
    count) and the template [CriterionAccumulator<ElemType>], followed by the
    properties of both.

    Numbers are modelled as the code has them:
    - [double] and [float] are IEEE 754 binary64 and binary32 values, taken
      from the specification of floating-point arithmetic of the standard
      library ([SpecFloat]), with round-to-nearest-even;
    - [size_t] is a 64-bit unsigned integer: an integer in [0, 2^64) whose
      additions and subtractions wrap around. *)

From Stdlib Require Import ZArith Lia Bool.
From Stdlib Require Import Floats.SpecFloat.
From stdpp Require Import base option list.

Open Scope Z_scope.

(** ** Machine numbers *)

Module SizeT.

Definition modulus : Z := 2 ^ 64.

Definition in_range (n : Z) : Prop := 0 <= n < modulus.

(** [a + b] and [a - b] on [size_t]. *)
Definition add (a b : Z) : Z := (a + b) mod modulus.
Definition sub (a b : Z) : Z := (a - b) mod modulus.

End SizeT.

Module Double.

Definition prec : Z := 53.
Definition emax : Z := 1024.

Definition zero : spec_float := S754_zero false.
Definition infinity : spec_float := S754_infinity false.

Definition add : spec_float -> spec_float -> spec_float := SFadd prec emax.
Definition sub : spec_float -> spec_float -> spec_float := SFsub prec emax.
Definition div : spec_float -> spec_float -> spec_float := SFdiv prec emax.

(** [x == y] of C++. *)
Definition eqb : spec_float -> spec_float -> bool := SFeqb.

(** [std::isnan]. *)
Definition isnan (x : spec_float) : bool :=
  match x with S754_nan => true | _ => false end.

(** The implicit conversion of an integer to [double]. *)
Definition of_Z (n : Z) : spec_float := binary_normalize prec emax n 0 false.

Definition valid (x : spec_float) : bool := valid_binary prec emax x.


End Double.

(** ** EpochCriterion *)

(** [struct EpochCriterion : public std::pair<double, size_t>] *)
Record EpochCriterion : Type := mkEpochCriterion {
  first : spec_float;
  second : Z
}.

Module Epoch.

(** The default arguments of the constructor:
    [EpochCriterion(double aggregateCriterionValue = 0.0,
                    size_t aggregateSampleCount = 0)]. *)
Definition default : EpochCriterion := mkEpochCriterion Double.zero 0.

(** [double Average() const { return second > 0 ? first / second : 0.0; }] *)
Definition Average (this : EpochCriterion) : spec_float :=
  if 0 <? second this
  then Double.div (first this) (Double.of_Z (second this))
  else Double.zero.

(** [bool IsNan() const { return std::isnan(first); }] *)
Definition IsNan (this : EpochCriterion) : bool := Double.isnan (first this).

(** [EpochCriterion operator-(const EpochCriterion& other) const] *)
Definition minus (this other : EpochCriterion) : EpochCriterion :=
  mkEpochCriterion (Double.sub (first this) (first other))
                   (SizeT.sub (second this) (second other)).

(** [void operator+=(const EpochCriterion& other)]: the value of [*this]
    after the call. *)
Definition plus_assign (this other : EpochCriterion) : EpochCriterion :=
  mkEpochCriterion (Double.add (first this) (first other))
                   (SizeT.add (second this) (second other)).

(** [static EpochCriterion Infinity()] *)
Definition Infinity : EpochCriterion :=
  mkEpochCriterion Double.infinity (second default).

(** [bool IsInfinity() const] *)
Definition IsInfinity (this : EpochCriterion) : bool :=
  Double.eqb (first this) Double.infinity.

(** Folding a list of updates into a running criterion with [+=]. *)
Definition merge_all (start : EpochCriterion) (updates : list EpochCriterion)
  : EpochCriterion :=
  foldl plus_assign start updates.

(** The sum of the sample counts of a list of updates, as an integer. *)
Definition count_sum (updates : list EpochCriterion) : Z :=
  foldr (fun u acc => second u + acc) 0 updates.

(** A field-wise well-formed criterion: a binary64 value and a [size_t]. *)
Definition well_formed (c : EpochCriterion) : Prop :=
  Double.valid (first c) = true /\ SizeT.in_range (second c).

End Epoch.

(** ** ElemType: the template parameter of the accumulator *)

(** [CriterionAccumulator<ElemType>] is instantiated at [float] and at
    [double]; the matrix of running totals holds elements of that type. *)
Inductive ElemType : Type := ElemFloat | ElemDouble.

Global Instance ElemType_eq_dec : EqDecision ElemType.
Proof. solve_decision. Defined.

Global Instance spec_float_eq_dec : EqDecision spec_float.
Proof. solve_decision. Defined.

Module Elem.

Definition prec (E : ElemType) : Z :=
  match E with ElemFloat => 24 | ElemDouble => Double.prec end.
Definition emax (E : ElemType) : Z :=
  match E with ElemFloat => 128 | ElemDouble => Double.emax end.

Definition zero : spec_float := S754_zero false.

Definition add (E : ElemType) : spec_float -> spec_float -> spec_float :=
  SFadd (prec E) (emax E).

Definition of_Z (E : ElemType) (n : Z) : spec_float :=
  binary_normalize (prec E) (emax E) n 0 false.

(** The implicit conversion of an [ElemType] to [double] at the call of
    the [EpochCriterion] constructor: the identity on a [double], the
    renormalisation of the same number as a binary64 on a [float]. *)
Definition to_double (E : ElemType) (x : spec_float) : spec_float :=
  match E with
  | ElemDouble => x
  | ElemFloat =>
      match x with
      | S754_finite s m e =>
          binary_normalize Double.prec Double.emax (cond_Zopp s (Zpos m)) e s
      | _ => x
      end
  end.

End Elem.

(** [float beta = !reset;]: the conversion of a [bool] to [float]. *)
Definition float_of_bool (b : bool) : spec_float :=
  Elem.of_Z ElemFloat (if b then 1 else 0).

(** ** Matrix: the element operations the accumulator uses *)

(** Modelled from the spec: [Matrix.h] is not among the sources. The spec
    describes the totals as a [1 x N] tensor of scalars, the constructor as
    zero-filling it, [AssignElementToElement] as copying the single scalar at
    one position into another, overwriting, and [AddElementToElement] as
    adding that scalar into the target position in place. A matrix is a
    column-major array of [ElemType] elements; an access outside the
    dimensions has no defined result ([None]). The device placement
    ([DEVICEID_TYPE]) does not influence any value and is left out. *)
Record Matrix : Type := mkMatrix {
  NumRows : nat;
  NumCols : nat;
  Data : list spec_float
}.

Module Mat.

(** Position of element [(i, j)] in the column-major array. *)
Definition locate (m : Matrix) (i j : nat) : option nat :=
  if decide (i < NumRows m /\ j < NumCols m)%nat
  then Some (j * NumRows m + i)%nat
  else None.

(** [m(i, j)] read. *)
Definition element (m : Matrix) (i j : nat) : option spec_float :=
  k ← locate m i j; Data m !! k.

(** [m(i, j) = x]. *)
Definition set_element (m : Matrix) (i j : nat) (x : spec_float)
  : option Matrix :=
  k ← locate m i j;
  _ ← Data m !! k;
  Some (mkMatrix (NumRows m) (NumCols m) (<[k := x]> (Data m))).

(** Modelled from the spec: [Matrix(numRows, numCols, deviceId)] allocates
    the buffer, which the accumulator's constructor then fills. *)
Definition create (numRows numCols : nat) : Matrix :=
  mkMatrix numRows numCols (replicate (numRows * numCols) Elem.zero).

(** Modelled from the spec: [m.SetValue(x)] fills the matrix, every element
    becomes [x]. *)
Definition SetValue (x : spec_float) (m : Matrix) : Matrix :=
  mkMatrix (NumRows m) (NumCols m) (replicate (length (Data m)) x).

(** Modelled from the spec: [AssignElementToElement(a, ai, aj, c, ci, cj)]
    of [Matrix.h] copies the single scalar [a(ai,aj)] into [c(ci,cj)],
    overwriting; the result is the new [c]. *)
Definition AssignElementToElement (a : Matrix) (ai aj : nat)
    (c : Matrix) (ci cj : nat) : option Matrix :=
  x ← element a ai aj;
  set_element c ci cj x.

(** Modelled from the spec: [AddElementToElement(a, ai, aj, c, ci, cj)] of
    [Matrix.h] adds the scalar [a(ai,aj)] into [c(ci,cj)] in place, in the
    arithmetic of [ElemType]. *)
Definition AddElementToElement (E : ElemType) (a : Matrix) (ai aj : nat)
    (c : Matrix) (ci cj : nat) : option Matrix :=
  x ← element a ai aj;
  y ← element c ci cj;
  set_element c ci cj (Elem.add E y x).

(** The [1 x 1] matrix holding [x]: the value of a scalar criterion node. *)
Definition scalar (x : spec_float) : Matrix := mkMatrix 1 1 [x].

End Mat.

(** ** Computation nodes, as far as the accumulator looks at them *)

(** Modelled from the spec: the minibatch layout class is not among the
    sources; of an [MBLayout] only [GetActualNumSamples()], the number of
    samples without padding, is used. *)
Record MBLayout : Type := mkMBLayout {
  GetActualNumSamples : Z
}.

(** Modelled from the spec: the computation-graph node classes are not among
    the sources. A node ([ComputationNodeBasePtr]) is the producer of a value;
    it has the element type of its concrete class
    [ComputationNode<ElemType>], its value matrix, and a minibatch layout
    pointer that may be null. *)
Record ComputationNodeBase : Type := mkNode {
  NodeElemType : ElemType;
  Value : Matrix;
  GetMBLayout : option MBLayout
}.

(** [node->HasMBLayout()] *)
Definition HasMBLayout (node : ComputationNodeBase) : bool :=
  match GetMBLayout node with Some _ => true | None => false end.

(** [dynamic_pointer_cast<ComputationNode<ElemType>>(node)]: null when the
    node is of another element type; dereferencing null has no defined
    result. *)
Definition dynamic_pointer_cast (E : ElemType) (node : ComputationNodeBase)
  : option ComputationNodeBase :=
  if decide (NodeElemType node = E) then Some node else None.

(** A scalar criterion node without and with a layout. *)
Definition scalar_node (E : ElemType) (x : spec_float) : ComputationNodeBase :=
  mkNode E (Mat.scalar x) None.
Definition layout_node (E : ElemType) (x : spec_float) (actual : Z)
  : ComputationNodeBase :=
  mkNode E (Mat.scalar x) (Some (mkMBLayout actual)).

(** ** CriterionAccumulator *)

Record CriterionAccumulator : Type := mkAccumulator {
  m_aggregateCriterionValues : Matrix;  (* [1 x N] *)
  m_aggregateSampleCounts : list Z      (* [N] *)
}.

Section Accumulator.

Variable E : ElemType.

(** [CriterionAccumulator(size_t numCriteria, DEVICEID_TYPE deviceId)] *)
Definition New (numCriteria : nat) : CriterionAccumulator :=
  mkAccumulator (Mat.SetValue (Elem.of_Z E 0) (Mat.create 1 numCriteria))
                (replicate numCriteria 0).

(** [static size_t GetNumSamples(node, legacyNumSamples)] *)
Definition GetNumSamples (node : ComputationNodeBase) (legacyNumSamples : Z)
  : Z :=
  if HasMBLayout node
  then match GetMBLayout node with
       | Some layout => GetActualNumSamples layout
       | None => legacyNumSamples (* not reached: the layout is not null *)
       end
  else legacyNumSamples.

(** [template<bool reset> Accumulate(nodes, i, legacyNumSamples)]: the
    accumulator after the call ([*this], which the method returns by
    reference), or [None] where the C++ has no defined behaviour (index out
    of range, failed cast). *)
Definition Accumulate (reset : bool) (nodes : list ComputationNodeBase)
    (i : nat) (legacyNumSamples : Z) (this : CriterionAccumulator)
  : option CriterionAccumulator :=
  node ← nodes !! i;
  let beta := float_of_bool (negb reset) in
  if SFeqb beta (Elem.of_Z ElemFloat 0) then
    typed ← dynamic_pointer_cast E node;
    totals ← Mat.AssignElementToElement (Value typed) 0 0
               (m_aggregateCriterionValues this) 0 i;
    _ ← m_aggregateSampleCounts this !! i;
    Some (mkAccumulator totals
            (<[i := GetNumSamples node legacyNumSamples]>
               (m_aggregateSampleCounts this)))
  else
    typed ← dynamic_pointer_cast E node;
    totals ← Mat.AddElementToElement E (Value typed) 0 0
               (m_aggregateCriterionValues this) 0 i;
    old ← m_aggregateSampleCounts this !! i;
    Some (mkAccumulator totals
            (<[i := SizeT.add old (GetNumSamples node legacyNumSamples)]>
               (m_aggregateSampleCounts this))).

Definition Add := Accumulate false.
Definition Assign := Accumulate true.

(** [EpochCriterion GetCriterion(size_t i) const] *)
Definition GetCriterion (i : nat) (this : CriterionAccumulator)
  : option EpochCriterion :=
  total ← Mat.element (m_aggregateCriterionValues this) 0 i;
  count ← m_aggregateSampleCounts this !! i;
  Some (mkEpochCriterion (Elem.to_double E total) count).

(** The invariant of an accumulator for [N] criteria. *)
Definition has_slots (N : nat) (this : CriterionAccumulator) : Prop :=
  NumRows (m_aggregateCriterionValues this) = 1%nat /\
  NumCols (m_aggregateCriterionValues this) = N /\
  length (Data (m_aggregateCriterionValues this)) = N /\
  length (m_aggregateSampleCounts this) = N.

(** *** Sequences of method calls *)

Inductive Call : Type :=
| CallAdd (nodes : list ComputationNodeBase) (i : nat) (legacyNumSamples : Z)
| CallAssign (nodes : list ComputationNodeBase) (i : nat) (legacyNumSamples : Z)
| CallGetCriterion (i : nat).

Definition is_update (c : Call) : bool :=
  match c with CallGetCriterion _ => false | _ => true end.

Definition slot_of (c : Call) : nat :=
  match c with
  | CallAdd _ i _ | CallAssign _ i _ | CallGetCriterion i => i
  end.

(** One call on the object: the snapshots it hands out and the object's
    state after it. [GetCriterion] is a [const] method. *)
Definition perform (c : Call) (this : CriterionAccumulator)
  : option (list EpochCriterion * CriterionAccumulator) :=
  match c with
  | CallAdd nodes i n => this' ← Add nodes i n this; Some ([], this')
  | CallAssign nodes i n => this' ← Assign nodes i n this; Some ([], this')
  | CallGetCriterion i => r ← GetCriterion i this; Some ([r], this)
  end.

Fixpoint run (cs : list Call) (this : CriterionAccumulator)
  : option (list EpochCriterion * CriterionAccumulator) :=
  match cs with
  | [] => Some ([], this)
  | c :: cs' =>
      r1 ← perform c this;
      r2 ← run cs' r1.2;
      Some (r1.1 ++ r2.1, r2.2)
  end.

End Accumulator.

(** ** What one update reads, and size_t-valued inputs *)

(** What [Accumulate] reads for slot [i] from the node vector of a
    minibatch: the scalar at position (0,0) of the value of [nodes[i]], seen
    as a [ComputationNode<ElemType>], and the number of samples of that
    node. *)
Definition contribution (E : ElemType) (i : nat)
    (nodes : list ComputationNodeBase) (legacyNumSamples : Z)
  : option (spec_float * Z) :=
  node ← nodes !! i;
  typed ← dynamic_pointer_cast E node;
  v ← Mat.element (Value typed) 0 0;
  Some (v, GetNumSamples node legacyNumSamples).

(** The calls that add the minibatches of a list into slot [i], in order. *)
Definition adds (i : nat) (minibatches : list (list ComputationNodeBase * Z))
  : list Call :=
  map (fun mb => CallAdd mb.1 i mb.2) minibatches.

(** The numbers of samples that a call hands to the accumulator are
    [size_t] values. *)
Definition node_in_range (node : ComputationNodeBase) : Prop :=
  match GetMBLayout node with
  | Some layout => SizeT.in_range (GetActualNumSamples layout)
  | None => True
  end.

Definition call_in_range (c : Call) : Prop :=
  match c with
  | CallAdd nodes _ n | CallAssign nodes _ n =>
      SizeT.in_range n /\ Forall node_in_range nodes
  | CallGetCriterion _ => True
  end.

Definition counts_in_range (this : CriterionAccumulator) : Prop :=
  Forall SizeT.in_range (m_aggregateSampleCounts this).

(** ** Concrete values used in examples *)

Module Sample.

(** 0.1, 0.2 and 0.3 as the nearest doubles. *)
Definition tenth : spec_float := Double.div (Double.of_Z 1) (Double.of_Z 10).
Definition fifth : spec_float := Double.div (Double.of_Z 2) (Double.of_Z 10).
Definition three_tenths : spec_float :=
  Double.div (Double.of_Z 3) (Double.of_Z 10).

Definition a : EpochCriterion := mkEpochCriterion tenth 1.
Definition b : EpochCriterion := mkEpochCriterion fifth 1.
Definition c : EpochCriterion := mkEpochCriterion three_tenths 1.

(** The node vector of a minibatch for two criteria, the first of which has
    the value [x] and no layout. *)
Definition nodes (E : ElemType) (x : spec_float) : list ComputationNodeBase :=
  [scalar_node E x; scalar_node E Elem.zero].

(** The same, with a layout of [actual] samples on the first node. *)
Definition layout_nodes (E : ElemType) (x : spec_float) (actual : Z)
  : list ComputationNodeBase :=
  [layout_node E x actual; scalar_node E Elem.zero].

End Sample.

(** * Properties *)

(** ** Arithmetic helpers *)

Lemma modulus_pos : 0 < SizeT.modulus.
Proof. reflexivity. Qed.

Lemma SizeT_add_comm (x y : Z) : SizeT.add x y = SizeT.add y x.
Proof. unfold SizeT.add. f_equal. lia. Qed.

Lemma SizeT_add_assoc (x y z : Z) :
  SizeT.add (SizeT.add x y) z = SizeT.add x (SizeT.add y z).
Proof.
  unfold SizeT.add.
  rewrite Z.add_mod_idemp_l, Z.add_mod_idemp_r by (pose proof modulus_pos; lia).
  f_equal. lia.
Qed.

Lemma SizeT_add_0_l (x : Z) : SizeT.add 0 x = x mod SizeT.modulus.
Proof. reflexivity. Qed.


Lemma SFadd_comm (prec emax : Z) (x y : spec_float) :
  SFadd prec emax x y = SFadd prec emax y x.
Proof.
  destruct x as [[]|[]| |sx mx ex], y as [[]|[]| |sy my ey]; try reflexivity.
  unfold SFadd. rewrite (Z.min_comm ey ex). f_equal. apply Z.add_comm.
Qed.

Lemma SFeqb_infinity (x : spec_float) :
  SFeqb x (S754_infinity false) = true <-> x = S754_infinity false.
Proof.
  split; [|intros ->; reflexivity].
  destruct x as [[]|[]| |[] m e]; cbn; congruence.
Qed.



Lemma merge_all_second (updates : list EpochCriterion) :
  forall start : EpochCriterion,
    second (Epoch.merge_all start updates) mod SizeT.modulus
    = (second start + Epoch.count_sum updates) mod SizeT.modulus.
Proof.
  unfold Epoch.merge_all, Epoch.count_sum.
  induction updates as [|u us IH]; intros start; cbn [foldl foldr].
  - f_equal. lia.
  - rewrite IH. cbn [Epoch.plus_assign second]. unfold SizeT.add.
    rewrite Z.add_mod_idemp_l by (pose proof modulus_pos; lia).
    f_equal. lia.
Qed.

(** ** EpochCriterion *)

(** C1. [Average()] returns [aggregateValue / aggregateSampleCount] (the
    count converted to double) when the count is positive, and exactly +0.0
    when the count is 0, whatever the value; it is a total function. *)
Theorem Average_spec (value : spec_float) (count : Z) :
  (0 < count ->
     Epoch.Average (mkEpochCriterion value count)
     = Double.div value (Double.of_Z count)) /\
  Epoch.Average (mkEpochCriterion value 0) = S754_zero false.
Proof.
  split; [|reflexivity].
  intros Hpos. unfold Epoch.Average. cbn [second first].
  destruct (Z.ltb_spec 0 count); [reflexivity | lia].
Qed.

Lemma Average_spec_witness :
  Epoch.Average (mkEpochCriterion (Double.of_Z 7) 15)
  = S754_finite false 8406719304424926 (-54).
Proof.
  rewrite (proj1 (Average_spec (Double.of_Z 7) 15)) by lia.
  reflexivity.
Defined.

(** C4 (as the claim states it, refuted): the average of [Infinity()] is not
    +infinity. *)
Lemma Infinity_Average_not_infinity :
  Epoch.Average Epoch.Infinity <> S754_infinity false /\
  Double.eqb (Epoch.Average Epoch.Infinity) Double.infinity = false.
Proof. split; [discriminate | reflexivity]. Qed.

(** C4 (amended). [Infinity()] is the pair (+infinity, 0), [IsInfinity()]
    holds of it, and its [Average()] is +0.0: the guard of [Average] is on the
    count, which is 0, so no division takes place. *)
Theorem Infinity_spec :
  Epoch.Infinity = mkEpochCriterion (S754_infinity false) 0 /\
  Epoch.IsInfinity Epoch.Infinity = true /\
  Epoch.Average Epoch.Infinity = S754_zero false.
Proof. repeat split. Qed.

(** C5. A criterion whose value is NaN satisfies [IsNan()] and not
    [IsInfinity()], whatever its count; [IsInfinity()] holds exactly of the
    value +infinity (so not of -infinity), and [IsNan()] exactly of NaN. *)
Theorem IsNan_IsInfinity_spec (this : EpochCriterion) (count : Z) :
  Epoch.IsNan (mkEpochCriterion S754_nan count) = true /\
  Epoch.IsInfinity (mkEpochCriterion S754_nan count) = false /\
  Epoch.IsInfinity (mkEpochCriterion (S754_infinity true) count) = false /\
  (Epoch.IsInfinity this = true <-> first this = S754_infinity false) /\
  (Epoch.IsNan this = true <-> first this = S754_nan).
Proof.
  split; [reflexivity|]. split; [reflexivity|]. split; [reflexivity|].
  split.
  - apply SFeqb_infinity.
  - unfold Epoch.IsNan, Double.isnan.
    destruct (first this); split; congruence.
Qed.

(** C6 (as the claim states it, refuted): merging 0.1, 0.2 and 0.3 (one
    sample each) in the two groupings gives two different aggregates, also
    when compared with [==]. *)
Lemma merge_not_associative :
  Epoch.well_formed Sample.a /\ Epoch.well_formed Sample.b /\
  Epoch.well_formed Sample.c /\
  Double.eqb
    (first (Epoch.plus_assign (Epoch.plus_assign Sample.a Sample.b) Sample.c))
    (first (Epoch.plus_assign Sample.a (Epoch.plus_assign Sample.b Sample.c)))
  = false /\
  Epoch.plus_assign (Epoch.plus_assign Sample.a Sample.b) Sample.c
  <> Epoch.plus_assign Sample.a (Epoch.plus_assign Sample.b Sample.c).
Proof.
  unfold Epoch.well_formed, SizeT.in_range.
  repeat split; try (vm_compute; congruence).
Qed.

(** C6 (amended). [a += b] leaves [a] equal to the pointwise sum (the values
    added as doubles, the counts modulo 2^64); the merge is commutative, and
    it is associative on the sample counts. *)
Theorem merge_law (a b c : EpochCriterion) :
  Epoch.plus_assign a b
  = mkEpochCriterion (Double.add (first a) (first b))
                     (SizeT.add (second a) (second b)) /\
  Epoch.plus_assign a b = Epoch.plus_assign b a /\
  second (Epoch.plus_assign (Epoch.plus_assign a b) c)
  = second (Epoch.plus_assign a (Epoch.plus_assign b c)).
Proof.
  repeat split.
  - unfold Epoch.plus_assign, Double.add.
    rewrite SFadd_comm, SizeT_add_comm. reflexivity.
  - cbn. apply SizeT_add_assoc.
Qed.

(** C7 (as the claim states it, refuted): with the earlier snapshot (0.1, 1)
    and the single update (0.2, 1) in between, the difference of the
    snapshots is not the update, and its average is not the update's; the
    same two snapshots come out of an accumulator of doubles after one and
    after two [Add]s. *)
Lemma delta_not_exact :
  Epoch.well_formed Sample.a /\ Epoch.well_formed Sample.b /\
  Epoch.minus (Epoch.merge_all Sample.a [Sample.b]) Sample.a <> Sample.b /\
  Double.eqb
    (Epoch.Average (Epoch.minus (Epoch.merge_all Sample.a [Sample.b]) Sample.a))
    (Epoch.Average Sample.b)
  = false /\
  (a1 ← Add ElemDouble (Sample.nodes ElemDouble Sample.tenth) 0 1
          (New ElemDouble 2);
   before ← GetCriterion ElemDouble 0 a1;
   a2 ← Add ElemDouble (Sample.nodes ElemDouble Sample.fifth) 0 1 a1;
   after ← GetCriterion ElemDouble 0 a2;
   Some (before, Epoch.minus after before))
  = Some (Sample.a,
          Epoch.minus (Epoch.merge_all Sample.a [Sample.b]) Sample.a).
Proof.
  unfold Epoch.well_formed, SizeT.in_range.
  repeat split; try (vm_compute; congruence).
Qed.

Lemma merge_all_first (updates : list EpochCriterion) :
  forall start : EpochCriterion,
    first (Epoch.merge_all start updates)
    = foldl Double.add (first start) (first <$> updates).
Proof.
  unfold Epoch.merge_all.
  induction updates as [|u us IH]; intros start; cbn [foldl fmap list_fmap].
  - reflexivity.
  - rewrite IH. reflexivity.
Qed.

(** C7 (amended). [operator-] subtracts both fields pointwise (the values as
    doubles, the counts modulo 2^64). When the later snapshot is the earlier
    one with the updates [u1 ... un] merged in by [+=], the difference of the
    two has as count the sum of the counts of exactly those updates, modulo
    2^64, and as value the double difference between the running sum
    [((value + u1) + ...) + un], each addition rounded, and the earlier value;
    its average is that value divided by that count when the count is
    positive, and +0.0 when the count is 0. *)
Theorem delta_law (earlier other : EpochCriterion)
    (updates : list EpochCriterion) :
  Epoch.minus earlier other
  = mkEpochCriterion (Double.sub (first earlier) (first other))
                     (SizeT.sub (second earlier) (second other)) /\
  second (Epoch.minus (Epoch.merge_all earlier updates) earlier)
  = Epoch.count_sum updates mod SizeT.modulus /\
  first (Epoch.minus (Epoch.merge_all earlier updates) earlier)
  = Double.sub (foldl Double.add (first earlier) (first <$> updates))
               (first earlier) /\
  Epoch.Average (Epoch.minus (Epoch.merge_all earlier updates) earlier)
  = if 0 <? Epoch.count_sum updates mod SizeT.modulus
    then Double.div
           (Double.sub (foldl Double.add (first earlier) (first <$> updates))
                       (first earlier))
           (Double.of_Z (Epoch.count_sum updates mod SizeT.modulus))
    else S754_zero false.
Proof.
  assert (Hcount :
            second (Epoch.minus (Epoch.merge_all earlier updates) earlier)
            = Epoch.count_sum updates mod SizeT.modulus).
  { cbn [Epoch.minus second]. unfold SizeT.sub.
    rewrite <- Zminus_mod_idemp_l, merge_all_second, Zminus_mod_idemp_l.
    f_equal. lia. }
  assert (Hvalue :
            first (Epoch.minus (Epoch.merge_all earlier updates) earlier)
            = Double.sub (foldl Double.add (first earlier) (first <$> updates))
                         (first earlier)).
  { cbn [Epoch.minus first]. rewrite merge_all_first. reflexivity. }
  split; [reflexivity|]. split; [exact Hcount|]. split; [exact Hvalue|].
  unfold Epoch.Average. rewrite Hcount, Hvalue. reflexivity.
Qed.

Lemma delta_law_witness :
  Epoch.minus (Epoch.merge_all Sample.a [Sample.b; Sample.c]) Sample.a
  = mkEpochCriterion
      (Double.sub
         (Double.add (Double.add Sample.tenth Sample.fifth) Sample.three_tenths)
         Sample.tenth)
      2 /\
  Epoch.Average
    (Epoch.minus
       (Epoch.merge_all Sample.a [mkEpochCriterion Sample.fifth 0]) Sample.a)
  = S754_zero false /\
  second
    (Epoch.minus
       (Epoch.merge_all Sample.a
          [mkEpochCriterion Sample.fifth 18446744073709551615;
           mkEpochCriterion Sample.fifth 2])
       Sample.a)
  = 1.
Proof.
  destruct (delta_law Sample.a Sample.a [Sample.b; Sample.c])
    as (_ & Hcount & Hvalue & _).
  destruct (delta_law Sample.a Sample.a [mkEpochCriterion Sample.fifth 0])
    as (_ & _ & _ & Havg).
  destruct (delta_law Sample.a Sample.a
              [mkEpochCriterion Sample.fifth 18446744073709551615;
               mkEpochCriterion Sample.fifth 2])
    as (_ & Hwrap & _).
  split; [|split].
  - destruct (Epoch.minus (Epoch.merge_all Sample.a [Sample.b; Sample.c])
                Sample.a) as [value count].
    cbn [first second] in Hcount, Hvalue. rewrite Hcount, Hvalue.
    reflexivity.
  - rewrite Havg. reflexivity.
  - rewrite Hwrap. reflexivity.
Defined.

(** C10. Subtracting a snapshot with the larger count from one with the
    smaller count wraps around: the count of the difference is the
    difference modulo 2^64, that is 2^64 more than the (negative) integer
    difference, a valid [size_t]. *)
Theorem minus_wraps (a b : EpochCriterion) :
  SizeT.in_range (second a) -> SizeT.in_range (second b) ->
  second a < second b ->
  second (Epoch.minus a b) = (second a - second b) mod 2 ^ 64 /\
  second (Epoch.minus a b) = second a - second b + 2 ^ 64 /\
  SizeT.in_range (second (Epoch.minus a b)).
Proof.
  unfold SizeT.in_range, SizeT.modulus. intros Ha Hb Hlt.
  assert (Heq : second (Epoch.minus a b) = second a - second b + 2 ^ 64).
  { cbn. unfold SizeT.sub, SizeT.modulus.
    symmetry. apply Z.mod_unique with (q := -1); lia. }
  repeat split; try (rewrite Heq; lia).
Qed.

Lemma minus_wraps_witness :
  second (Epoch.minus (mkEpochCriterion Double.zero 3)
                      (mkEpochCriterion Double.zero 5))
  = 18446744073709551614.
Proof.
  pose proof (minus_wraps (mkEpochCriterion Double.zero 3)
                (mkEpochCriterion Double.zero 5)) as H.
  destruct H as (_ & H & _).
  - unfold SizeT.in_range, SizeT.modulus; cbn; lia.
  - unfold SizeT.in_range, SizeT.modulus; cbn; lia.
  - cbn; lia.
  - rewrite H. reflexivity.
Defined.

(** ** CriterionAccumulator: the shape of one update *)

Lemma beta_test (reset : bool) :
  SFeqb (float_of_bool (negb reset)) (Elem.of_Z ElemFloat 0) = reset.
Proof. destruct reset; reflexivity. Qed.

Lemma GetNumSamples_eq (node : ComputationNodeBase) (legacyNumSamples : Z) :
  GetNumSamples node legacyNumSamples
  = match GetMBLayout node with
    | Some layout => GetActualNumSamples layout
    | None => legacyNumSamples
    end.
Proof.
  unfold GetNumSamples, HasMBLayout. destruct (GetMBLayout node); reflexivity.
Qed.

Lemma New_has_slots (E : ElemType) (N : nat) : has_slots N (New E N).
Proof.
  unfold has_slots, New, Mat.SetValue, Mat.create. cbn.
  rewrite !length_replicate. repeat split; lia.
Qed.

Lemma element_slot (N : nat) (this : CriterionAccumulator) (j : nat) :
  has_slots N this ->
  Mat.element (m_aggregateCriterionValues this) 0 j
  = Data (m_aggregateCriterionValues this) !! j.
Proof.
  intros (Hr & Hc & Hd & _). unfold Mat.element, Mat.locate.
  rewrite Hr, Hc. case_decide as Hj; cbn.
  - f_equal. lia.
  - symmetry. apply lookup_ge_None. lia.
Qed.

Lemma set_element_slot (N : nat) (this : CriterionAccumulator) (i : nat)
    (old x : spec_float) :
  has_slots N this ->
  Data (m_aggregateCriterionValues this) !! i = Some old ->
  Mat.set_element (m_aggregateCriterionValues this) 0 i x
  = Some (mkMatrix 1 N (<[i := x]> (Data (m_aggregateCriterionValues this)))).
Proof.
  intros Hs Hold. pose proof Hs as (Hr & Hc & Hd & _).
  apply lookup_lt_Some in Hold as Hlt.
  unfold Mat.set_element, Mat.locate. rewrite Hr, Hc.
  case_decide as Hj; [|lia]. cbn.
  replace (i * 1 + 0)%nat with i by lia. rewrite Hold. reflexivity.
Qed.

Section AccumulatorFacts.

Variable E : ElemType.

Lemma GetCriterion_slot (N : nat) (this : CriterionAccumulator) (j : nat) :
  has_slots N this ->
  GetCriterion E j this
  = (total ← Data (m_aggregateCriterionValues this) !! j;
     count ← m_aggregateSampleCounts this !! j;
     Some (mkEpochCriterion (Elem.to_double E total) count)).
Proof.
  intros Hs. unfold GetCriterion. rewrite (element_slot N) by exact Hs.
  reflexivity.
Qed.

(** What [Accumulate] does to an accumulator with [N] slots. *)
Lemma Accumulate_slot (reset : bool) (N : nat) (this : CriterionAccumulator)
    (nodes : list ComputationNodeBase) (i : nat) (legacyNumSamples : Z)
    (node : ComputationNodeBase) (v total : spec_float) (count : Z) :
  has_slots N this ->
  nodes !! i = Some node ->
  NodeElemType node = E ->
  Mat.element (Value node) 0 0 = Some v ->
  Data (m_aggregateCriterionValues this) !! i = Some total ->
  m_aggregateSampleCounts this !! i = Some count ->
  Accumulate E reset nodes i legacyNumSamples this
  = Some (mkAccumulator
            (mkMatrix 1 N
               (<[i := if reset then v else Elem.add E total v]>
                  (Data (m_aggregateCriterionValues this))))
            (<[i := if reset
                    then GetNumSamples node legacyNumSamples
                    else SizeT.add count
                           (GetNumSamples node legacyNumSamples)]>
               (m_aggregateSampleCounts this))).
Proof.
  intros Hs Hnode Hty Hv Htotal Hcount.
  unfold Accumulate. rewrite Hnode. cbn [mbind option_bind].
  rewrite beta_test. unfold dynamic_pointer_cast.
  case_decide as Hd; [|congruence]. cbn [mbind option_bind].
  destruct reset.
  - unfold Mat.AssignElementToElement. rewrite Hv. cbn [mbind option_bind].
    rewrite (set_element_slot N this i total) by assumption.
    cbn [mbind option_bind]. rewrite Hcount. reflexivity.
  - unfold Mat.AddElementToElement. rewrite Hv. cbn [mbind option_bind].
    rewrite (element_slot N) by exact Hs. rewrite Htotal.
    cbn [mbind option_bind].
    rewrite (set_element_slot N this i total) by assumption.
    cbn [mbind option_bind]. rewrite Hcount. reflexivity.
Qed.

Lemma slot_lookups (N : nat) (this : CriterionAccumulator) (i : nat) :
  has_slots N this -> (i < N)%nat ->
  exists total count,
    Data (m_aggregateCriterionValues this) !! i = Some total /\
    m_aggregateSampleCounts this !! i = Some count.
Proof.
  intros (_ & _ & Hd & Hc) Hi.
  destruct (lookup_lt_is_Some_2 (Data (m_aggregateCriterionValues this)) i)
    as [total Ht]; [lia|].
  destruct (lookup_lt_is_Some_2 (m_aggregateSampleCounts this) i)
    as [count Hcnt]; [lia|].
  eauto.
Qed.

(** A successful update never changes the number of slots. *)
Lemma Accumulate_has_slots (reset : bool) (N : nat)
    (this this' : CriterionAccumulator)
    (nodes : list ComputationNodeBase) (i : nat) (legacyNumSamples : Z) :
  has_slots N this ->
  Accumulate E reset nodes i legacyNumSamples this = Some this' ->
  has_slots N this'.
Proof.
  intros Hs Hacc. pose proof Hs as (Hr & Hc & Hd & Hn).
  unfold Accumulate in Hacc.
  destruct (nodes !! i) as [node|]; [|discriminate].
  cbn [mbind option_bind] in Hacc. rewrite beta_test in Hacc.
  unfold dynamic_pointer_cast in Hacc.
  case_decide; [|destruct reset; discriminate].
  cbn [mbind option_bind] in Hacc.
  unfold Mat.AssignElementToElement, Mat.AddElementToElement,
    Mat.set_element in Hacc.
  destruct reset; simplify_option_eq;
    unfold has_slots; cbn; rewrite !length_insert; auto.
Qed.

End AccumulatorFacts.

(** ** CriterionAccumulator: frame and invariant lemmas *)

Lemma set_element_other (c c' : Matrix) (i j : nat) (x : spec_float) :
  Mat.set_element c 0 i x = Some c' -> j <> i ->
  Mat.element c' 0 j = Mat.element c 0 j.
Proof.
  unfold Mat.set_element, Mat.element, Mat.locate. intros Hset Hne.
  case_decide as Hi; [|discriminate]. cbn [mbind option_bind] in Hset.
  destruct (Data c !! (i * NumRows c + 0)%nat); [|discriminate].
  cbn [mbind option_bind] in Hset. injection Hset as <-. cbn.
  case_decide as Hj; [|reflexivity]. cbn.
  apply list_lookup_insert_ne. nia.
Qed.

Section Frame.

Variable E : ElemType.

Lemma Accumulate_frame (reset : bool) (this this' : CriterionAccumulator)
    (nodes : list ComputationNodeBase) (i : nat) (legacyNumSamples : Z)
    (j : nat) :
  Accumulate E reset nodes i legacyNumSamples this = Some this' ->
  j <> i ->
  Mat.element (m_aggregateCriterionValues this') 0 j
  = Mat.element (m_aggregateCriterionValues this) 0 j /\
  m_aggregateSampleCounts this' !! j = m_aggregateSampleCounts this !! j.
Proof.
  intros Hacc Hne. unfold Accumulate in Hacc.
  destruct (nodes !! i) as [node|]; [|discriminate].
  cbn [mbind option_bind] in Hacc. rewrite beta_test in Hacc.
  unfold dynamic_pointer_cast in Hacc.
  case_decide; [|destruct reset; discriminate].
  cbn [mbind option_bind] in Hacc.
  unfold Mat.AssignElementToElement, Mat.AddElementToElement in Hacc.
  destruct (Mat.element (Value node) 0 0) as [v|];
    [|destruct reset; discriminate].
  cbn [mbind option_bind] in Hacc.
  destruct reset.
  - destruct (Mat.set_element _ 0 i v) as [totals|] eqn:Hset;
      [|discriminate].
    cbn [mbind option_bind] in Hacc.
    destruct (m_aggregateSampleCounts this !! i); [|discriminate].
    injection Hacc as <-. cbn. split.
    + eapply set_element_other; eauto.
    + apply list_lookup_insert_ne. congruence.
  - destruct (Mat.element (m_aggregateCriterionValues this) 0 i) as [y|];
      [|discriminate].
    cbn [mbind option_bind] in Hacc.
    destruct (Mat.set_element _ 0 i _) as [totals|] eqn:Hset;
      [|discriminate].
    cbn [mbind option_bind] in Hacc.
    destruct (m_aggregateSampleCounts this !! i); [|discriminate].
    injection Hacc as <-. cbn. split.
    + eapply set_element_other; eauto.
    + apply list_lookup_insert_ne. congruence.
Qed.

Lemma Accumulate_GetCriterion_other (reset : bool)
    (this this' : CriterionAccumulator)
    (nodes : list ComputationNodeBase) (i : nat) (legacyNumSamples : Z)
    (j : nat) :
  Accumulate E reset nodes i legacyNumSamples this = Some this' ->
  j <> i ->
  GetCriterion E j this' = GetCriterion E j this.
Proof.
  intros Hacc Hne.
  destruct (Accumulate_frame _ _ _ _ _ _ j Hacc Hne) as [Ht Hc].
  unfold GetCriterion. rewrite Ht, Hc. reflexivity.
Qed.

Lemma perform_has_slots (N : nat) (c : Call)
    (this this' : CriterionAccumulator) (outs : list EpochCriterion) :
  has_slots N this -> perform E c this = Some (outs, this') ->
  has_slots N this'.
Proof.
  intros Hs Hp. destruct c as [nodes i n|nodes i n|i]; cbn in Hp.
  - destruct (Add E nodes i n this) as [s|] eqn:Hadd; [|discriminate].
    cbn in Hp. injection Hp as _ <-.
    eapply (Accumulate_has_slots E false); eauto.
  - destruct (Assign E nodes i n this) as [s|] eqn:Hasg; [|discriminate].
    cbn in Hp. injection Hp as _ <-.
    eapply (Accumulate_has_slots E true); eauto.
  - destruct (GetCriterion E i this); [|discriminate].
    cbn in Hp. injection Hp as _ <-. exact Hs.
Qed.

Lemma run_has_slots (N : nat) (cs : list Call) :
  forall (this final : CriterionAccumulator) (outs : list EpochCriterion),
    has_slots N this -> run E cs this = Some (outs, final) ->
    has_slots N final.
Proof.
  induction cs as [|c cs IH]; intros this final outs Hs Hrun; cbn in Hrun.
  - injection Hrun as _ <-. exact Hs.
  - destruct (perform E c this) as [[o1 s1]|] eqn:Hp; [|discriminate].
    cbn in Hrun.
    destruct (run E cs s1) as [[o2 s2]|] eqn:Hr; [|discriminate].
    cbn in Hrun. injection Hrun as _ <-.
    eapply IH; [|exact Hr]. eapply perform_has_slots; eauto.
Qed.

(** The calls of [GetCriterion] can be erased from a sequence of calls
    without changing the final state of the accumulator. *)
Lemma run_erase_reads (cs : list Call) :
  forall (this final : CriterionAccumulator) (outs : list EpochCriterion),
    run E cs this = Some (outs, final) ->
    run E (List.filter is_update cs) this = Some ([], final).
Proof.
  induction cs as [|c cs IH]; intros this final outs Hrun; cbn in Hrun.
  - injection Hrun as _ <-. reflexivity.
  - destruct (perform E c this) as [[o1 s1]|] eqn:Hp; [|discriminate].
    cbn in Hrun.
    destruct (run E cs s1) as [[o2 s2]|] eqn:Hr; [|discriminate].
    cbn in Hrun. injection Hrun as _ <-.
    apply IH in Hr.
    destruct c as [nodes i n|nodes i n|i]; cbn [List.filter is_update].
    + cbn in Hp. destruct (Add E nodes i n this) as [s|] eqn:Hadd;
        [|discriminate].
      cbn in Hp. injection Hp as <- <-.
      cbn. rewrite Hadd. cbn. rewrite Hr. reflexivity.
    + cbn in Hp. destruct (Assign E nodes i n this) as [s|] eqn:Hasg;
        [|discriminate].
      cbn in Hp. injection Hp as <- <-.
      cbn. rewrite Hasg. cbn. rewrite Hr. reflexivity.
    + cbn in Hp. destruct (GetCriterion E i this); [|discriminate].
      cbn in Hp. injection Hp as _ <-. exact Hr.
Qed.

(** A slot that no update of the sequence addresses keeps its snapshot. *)
Lemma run_snapshot_stable (j : nat) (cs : list Call) :
  forall (this final : CriterionAccumulator) (outs : list EpochCriterion),
    run E cs this = Some (outs, final) ->
    (forall c, c ∈ cs -> is_update c = true -> slot_of c <> j) ->
    GetCriterion E j final = GetCriterion E j this.
Proof.
  induction cs as [|c cs IH]; intros this final outs Hrun Hslots;
    cbn in Hrun.
  - injection Hrun as _ <-. reflexivity.
  - destruct (perform E c this) as [[o1 s1]|] eqn:Hp; [|discriminate].
    cbn in Hrun.
    destruct (run E cs s1) as [[o2 s2]|] eqn:Hr; [|discriminate].
    cbn in Hrun. injection Hrun as _ <-.
    rewrite (IH s1 s2 o2 Hr).
    2:{ intros c' Hin. apply Hslots. by apply list_elem_of_further. }
    assert (Hc : is_update c = true -> slot_of c <> j).
    { apply Hslots. apply list_elem_of_here. }
    destruct c as [nodes i n|nodes i n|i]; cbn in Hp.
    + destruct (Add E nodes i n this) as [s|] eqn:Hadd; [|discriminate].
      cbn in Hp. injection Hp as _ <-.
      eapply (Accumulate_GetCriterion_other false); eauto.
      intros ->. by apply Hc.
    + destruct (Assign E nodes i n this) as [s|] eqn:Hasg; [|discriminate].
      cbn in Hp. injection Hp as _ <-.
      eapply (Accumulate_GetCriterion_other true); eauto.
      intros ->. by apply Hc.
    + destruct (GetCriterion E i this); [|discriminate].
      cbn in Hp. injection Hp as _ <-. reflexivity.
Qed.

End Frame.

(** ** Adding into a zero slot *)

Lemma of_Z_0 (E : ElemType) : Elem.of_Z E 0 = Elem.zero.
Proof. destruct E; reflexivity. Qed.

Lemma New_lookup (E : ElemType) (N i : nat) :
  (i < N)%nat ->
  Data (m_aggregateCriterionValues (New E N)) !! i = Some Elem.zero /\
  m_aggregateSampleCounts (New E N) !! i = Some 0.
Proof.
  intros Hi. unfold New, Mat.SetValue, Mat.create. cbn.
  rewrite ?of_Z_0, length_replicate. split; apply lookup_replicate_2; lia.
Qed.



(** ** CriterionAccumulator *)




(** C3. After any sequence of calls on a freshly constructed accumulator,
    [Assign] into slot [i] of a value [v] with count [c] makes
    [GetCriterion(i)] exactly (v, c): nothing of what the slot held before
    remains. *)
Theorem overwrite_law (E : ElemType) (N : nat) (cs : list Call)
    (outs : list EpochCriterion) (this : CriterionAccumulator)
    (nodes : list ComputationNodeBase) (i : nat) (legacyNumSamples : Z)
    (node : ComputationNodeBase) (v : spec_float) :
  run E cs (New E N) = Some (outs, this) ->
  (i < N)%nat ->
  nodes !! i = Some node -> NodeElemType node = E ->
  Mat.element (Value node) 0 0 = Some v ->
  exists this',
    Assign E nodes i legacyNumSamples this = Some this' /\
    GetCriterion E i this'
    = Some (mkEpochCriterion (Elem.to_double E v)
              (GetNumSamples node legacyNumSamples)).
Proof.
  intros Hrun Hi Hnode Hty Hv.
  assert (Hs : has_slots N this)
    by (eapply run_has_slots; [apply New_has_slots | exact Hrun]).
  destruct (slot_lookups N this i Hs Hi) as (total & count & Hd & Hc).
  pose proof (Accumulate_slot E true N this nodes i legacyNumSamples node v
                total count Hs Hnode Hty Hv Hd Hc) as Hasg.
  eexists. split; [exact Hasg|].
  rewrite (GetCriterion_slot E N)
    by (eapply (Accumulate_has_slots E true); eauto).
  apply lookup_lt_Some in Hd, Hc.
  cbn [m_aggregateCriterionValues m_aggregateSampleCounts Data].
  rewrite !list_lookup_insert_eq by assumption. reflexivity.
Qed.

Lemma overwrite_law_witness :
  exists this',
    Assign ElemFloat (Sample.nodes ElemFloat (Elem.of_Z ElemFloat 1)) 0 1
      (mkAccumulator
         (mkMatrix 1 2 [Elem.of_Z ElemFloat 7; Elem.zero]) [15; 0])
    = Some this' /\
    GetCriterion ElemFloat 0 this' = Some (mkEpochCriterion (Double.of_Z 1) 1).
Proof.
  apply (overwrite_law ElemFloat 2
           [CallAdd (Sample.nodes ElemFloat (Elem.of_Z ElemFloat 3)) 0 10;
            CallGetCriterion 1;
            CallAdd (Sample.nodes ElemFloat (Elem.of_Z ElemFloat 4)) 0 5]
           [mkEpochCriterion Double.zero 0]
           (mkAccumulator
              (mkMatrix 1 2 [Elem.of_Z ElemFloat 7; Elem.zero]) [15; 0])
           (Sample.nodes ElemFloat (Elem.of_Z ElemFloat 1)) 0 1
           (scalar_node ElemFloat (Elem.of_Z ElemFloat 1))
           (Elem.of_Z ElemFloat 1)); try reflexivity.
  lia.
Defined.

(** C8. For [Add] and for [Assign] on slot [i], the sample count that the
    update contributes is the actual number of samples of the node's
    minibatch layout when the node has one, and the caller's
    [legacyNumSamples] otherwise: [Assign] stores it, [Add] adds it to the
    count of the slot. *)
Theorem sample_count_determination (E : ElemType) (reset : bool) (N : nat)
    (this : CriterionAccumulator) (nodes : list ComputationNodeBase)
    (i : nat) (legacyNumSamples : Z) (node : ComputationNodeBase)
    (v : spec_float) :
  has_slots N this -> (i < N)%nat ->
  nodes !! i = Some node -> NodeElemType node = E ->
  Mat.element (Value node) 0 0 = Some v ->
  exists this' old,
    m_aggregateSampleCounts this !! i = Some old /\
    Accumulate E reset nodes i legacyNumSamples this = Some this' /\
    GetNumSamples node legacyNumSamples
    = match GetMBLayout node with
      | Some layout => GetActualNumSamples layout
      | None => legacyNumSamples
      end /\
    m_aggregateSampleCounts this' !! i
    = Some (if reset
            then GetNumSamples node legacyNumSamples
            else SizeT.add old (GetNumSamples node legacyNumSamples)).
Proof.
  intros Hs Hi Hnode Hty Hv.
  destruct (slot_lookups N this i Hs Hi) as (total & count & Hd & Hc).
  pose proof (Accumulate_slot E reset N this nodes i legacyNumSamples node v
                total count Hs Hnode Hty Hv Hd Hc) as Hacc.
  eexists. exists count. split; [exact Hc|]. split; [exact Hacc|].
  split; [apply GetNumSamples_eq|].
  apply lookup_lt_Some in Hc. cbn [m_aggregateSampleCounts].
  apply list_lookup_insert_eq. exact Hc.
Qed.

Lemma sample_count_determination_witness :
  (exists this',
     Add ElemDouble (Sample.layout_nodes ElemDouble Sample.tenth 7) 0 100
       (mkAccumulator (mkMatrix 1 2 [Sample.fifth; Elem.zero]) [5; 0])
     = Some this' /\
     m_aggregateSampleCounts this' !! 0%nat = Some 12) /\
  (exists this',
     Assign ElemDouble (Sample.nodes ElemDouble Sample.tenth) 0 100
       (mkAccumulator (mkMatrix 1 2 [Sample.fifth; Elem.zero]) [5; 0])
     = Some this' /\
     m_aggregateSampleCounts this' !! 0%nat = Some 100).
Proof.
  split.
  - destruct (sample_count_determination ElemDouble false 2
                (mkAccumulator (mkMatrix 1 2 [Sample.fifth; Elem.zero]) [5; 0])
                (Sample.layout_nodes ElemDouble Sample.tenth 7) 0 100
                (layout_node ElemDouble Sample.tenth 7) Sample.tenth)
      as (this' & old & Hold & Hacc & _ & Hcount);
      try reflexivity; [repeat split | lia |].
    exists this'. split; [exact Hacc|].
    rewrite Hcount. injection Hold as <-. reflexivity.
  - destruct (sample_count_determination ElemDouble true 2
                (mkAccumulator (mkMatrix 1 2 [Sample.fifth; Elem.zero]) [5; 0])
                (Sample.nodes ElemDouble Sample.tenth) 0 100
                (scalar_node ElemDouble Sample.tenth) Sample.tenth)
      as (this' & old & Hold & Hacc & _ & Hcount);
      try reflexivity; [repeat split | lia |].
    exists this'. split; [exact Hacc|].
    rewrite Hcount. reflexivity.
Defined.

(** C9. On an accumulator with [N] slots and for [i < N], [Add] and [Assign]
    on slot [i] succeed, keep the [N] slots and change neither the total nor
    the count of any other slot [j]; [GetCriterion] leaves the accumulator as
    it is, so the calls of it can be removed from any sequence of calls
    without changing the final state, and the snapshot of a slot stays the
    same over any sequence of calls whose updates address other slots. *)
Theorem frame_law (E : ElemType) (N : nat) (this : CriterionAccumulator) :
  has_slots N this ->
  (forall (reset : bool) (nodes : list ComputationNodeBase) (i : nat)
          (legacyNumSamples : Z) (node : ComputationNodeBase)
          (v : spec_float),
      (i < N)%nat ->
      nodes !! i = Some node -> NodeElemType node = E ->
      Mat.element (Value node) 0 0 = Some v ->
      exists this',
        Accumulate E reset nodes i legacyNumSamples this = Some this' /\
        has_slots N this' /\
        forall j : nat, j <> i ->
          Mat.element (m_aggregateCriterionValues this') 0 j
          = Mat.element (m_aggregateCriterionValues this) 0 j /\
          m_aggregateSampleCounts this' !! j
          = m_aggregateSampleCounts this !! j /\
          GetCriterion E j this' = GetCriterion E j this) /\
  (forall (j : nat) (outs : list EpochCriterion)
          (this' : CriterionAccumulator),
      perform E (CallGetCriterion j) this = Some (outs, this') ->
      this' = this) /\
  (forall (cs : list Call) (outs : list EpochCriterion)
          (final : CriterionAccumulator),
      run E cs this = Some (outs, final) ->
      run E (List.filter is_update cs) this = Some ([], final)) /\
  (forall (cs : list Call) (outs : list EpochCriterion)
          (final : CriterionAccumulator) (j : nat),
      run E cs this = Some (outs, final) ->
      (forall c, c ∈ cs -> is_update c = true -> slot_of c <> j) ->
      GetCriterion E j final = GetCriterion E j this).
Proof.
  intros Hs. split; [|split; [|split]].
  - intros reset nodes i legacyNumSamples node v Hi Hnode Hty Hv.
    destruct (slot_lookups N this i Hs Hi) as (total & count & Hd & Hc).
    pose proof (Accumulate_slot E reset N this nodes i legacyNumSamples node v
                  total count Hs Hnode Hty Hv Hd Hc) as Hacc.
    eexists. split; [exact Hacc|]. split.
    + eapply Accumulate_has_slots; eauto.
    + intros j Hj.
      destruct (Accumulate_frame E _ _ _ _ _ _ j Hacc Hj) as [Ht Hcnt].
      split; [exact Ht|]. split; [exact Hcnt|].
      eapply Accumulate_GetCriterion_other; eauto.
  - intros j outs this' Hp. cbn in Hp.
    destruct (GetCriterion E j this); [|discriminate].
    cbn in Hp. injection Hp as _ <-. reflexivity.
  - intros cs outs final Hrun. eapply run_erase_reads; eauto.
  - intros cs outs final j Hrun Hslots. eapply run_snapshot_stable; eauto.
Qed.

Lemma frame_law_witness :
  exists this',
    Add ElemDouble (Sample.nodes ElemDouble Sample.tenth) 0 4
      (New ElemDouble 2) = Some this' /\
    GetCriterion ElemDouble 1 this' = GetCriterion ElemDouble 1 (New ElemDouble 2) /\
    GetCriterion ElemDouble 1 this' = Some (mkEpochCriterion Double.zero 0).
Proof.
  assert (Hs : has_slots 2 (New ElemDouble 2)) by (repeat split).
  destruct (proj1 (frame_law ElemDouble 2 (New ElemDouble 2) Hs)
              false (Sample.nodes ElemDouble Sample.tenth) 0%nat 4
              (scalar_node ElemDouble Sample.tenth) Sample.tenth)
    as (this' & Hadd & _ & Hframe); try reflexivity; [lia|].
  exists this'. split; [exact Hadd|].
  destruct (Hframe 1%nat) as (_ & _ & Hget); [lia|].
  split; [exact Hget|]. rewrite Hget. reflexivity.
Defined.

(** * Further properties of the code *)

(** ** Inversion of a successful update *)

Lemma set_element_slot_None (N : nat) (this : CriterionAccumulator) (i : nat)
    (x : spec_float) :
  has_slots N this ->
  Data (m_aggregateCriterionValues this) !! i = None ->
  Mat.set_element (m_aggregateCriterionValues this) 0 i x = None.
Proof.
  intros (Hr & Hc & Hd & _) Hnone.
  unfold Mat.set_element, Mat.locate. rewrite Hr, Hc.
  case_decide as Hj; [|reflexivity]. cbn.
  replace (i * 1 + 0)%nat with i by lia. rewrite Hnone. reflexivity.
Qed.

Lemma contribution_Some (E : ElemType) (i : nat)
    (nodes : list ComputationNodeBase) (legacyNumSamples : Z)
    (v : spec_float) (n : Z) :
  contribution E i nodes legacyNumSamples = Some (v, n) <->
  exists node,
    nodes !! i = Some node /\ NodeElemType node = E /\
    Mat.element (Value node) 0 0 = Some v /\
    GetNumSamples node legacyNumSamples = n.
Proof.
  unfold contribution, dynamic_pointer_cast. split.
  - intros H. destruct (nodes !! i) as [node|]; [|discriminate].
    cbn [mbind option_bind] in H. case_decide as Hty; [|discriminate].
    cbn [mbind option_bind] in H.
    destruct (Mat.element (Value node) 0 0) as [v'|] eqn:Hv; [|discriminate].
    cbn in H. injection H as <- <-. exists node. repeat split; assumption.
  - intros (node & -> & Hty & Hv & <-). cbn [mbind option_bind].
    case_decide; [|congruence]. cbn [mbind option_bind]. rewrite Hv.
    reflexivity.
Qed.

Section Inversion.

Variable E : ElemType.

Lemma Accumulate_None_contribution (reset : bool)
    (nodes : list ComputationNodeBase) (i : nat) (legacyNumSamples : Z)
    (this : CriterionAccumulator) :
  contribution E i nodes legacyNumSamples = None ->
  Accumulate E reset nodes i legacyNumSamples this = None.
Proof.
  unfold contribution, Accumulate, dynamic_pointer_cast. intros H.
  destruct (nodes !! i) as [node|]; [|reflexivity].
  cbn [mbind option_bind] in *. rewrite beta_test.
  case_decide as Hty.
  - cbn [mbind option_bind] in *.
    unfold Mat.AssignElementToElement, Mat.AddElementToElement.
    destruct (Mat.element (Value node) 0 0); [discriminate|].
    destruct reset; reflexivity.
  - destruct reset; reflexivity.
Qed.

(** A successful update of an accumulator with [N] slots has read a
    contribution and a slot, and has the shape of [Accumulate_slot]. *)
Lemma Accumulate_inv (reset : bool) (N : nat)
    (this this' : CriterionAccumulator)
    (nodes : list ComputationNodeBase) (i : nat) (legacyNumSamples : Z) :
  has_slots N this ->
  Accumulate E reset nodes i legacyNumSamples this = Some this' ->
  exists v n total count,
    contribution E i nodes legacyNumSamples = Some (v, n) /\
    Data (m_aggregateCriterionValues this) !! i = Some total /\
    m_aggregateSampleCounts this !! i = Some count /\
    this' = mkAccumulator
              (mkMatrix 1 N
                 (<[i := if reset then v else Elem.add E total v]>
                    (Data (m_aggregateCriterionValues this))))
              (<[i := if reset then n else SizeT.add count n]>
                 (m_aggregateSampleCounts this)).
Proof.
  intros Hs Hacc.
  destruct (contribution E i nodes legacyNumSamples) as [[v n]|] eqn:Hcon.
  2:{ rewrite Accumulate_None_contribution in Hacc by exact Hcon.
      discriminate. }
  apply contribution_Some in Hcon as Hcon'.
  destruct Hcon' as (node & Hnode & Hty & Hv & Hn).
  destruct (Data (m_aggregateCriterionValues this) !! i) as [total|] eqn:Hd.
  - destruct (m_aggregateSampleCounts this !! i) as [count|] eqn:Hc.
    + rewrite (Accumulate_slot E reset N this nodes i legacyNumSamples node v
                 total count Hs Hnode Hty Hv Hd Hc) in Hacc.
      injection Hacc as <-. rewrite Hn. eauto 10.
    + exfalso. pose proof Hs as (_ & _ & Hlen & Hlen').
      apply lookup_lt_Some in Hd. apply lookup_ge_None in Hc. lia.
  - exfalso. unfold Accumulate in Hacc. rewrite Hnode in Hacc.
    cbn [mbind option_bind] in Hacc. rewrite beta_test in Hacc.
    unfold dynamic_pointer_cast in Hacc. case_decide; [|congruence].
    cbn [mbind option_bind] in Hacc.
    unfold Mat.AssignElementToElement, Mat.AddElementToElement in Hacc.
    rewrite Hv in Hacc. cbn [mbind option_bind] in Hacc.
    rewrite (element_slot N) in Hacc by exact Hs. rewrite Hd in Hacc.
    destruct reset; [|discriminate].
    rewrite (set_element_slot_None N) in Hacc by assumption. discriminate.
Qed.

Lemma Accumulate_of_contribution (reset : bool) (N : nat)
    (this : CriterionAccumulator)
    (nodes : list ComputationNodeBase) (i : nat) (legacyNumSamples : Z)
    (v total : spec_float) (n count : Z) :
  has_slots N this ->
  contribution E i nodes legacyNumSamples = Some (v, n) ->
  Data (m_aggregateCriterionValues this) !! i = Some total ->
  m_aggregateSampleCounts this !! i = Some count ->
  Accumulate E reset nodes i legacyNumSamples this
  = Some (mkAccumulator
            (mkMatrix 1 N
               (<[i := if reset then v else Elem.add E total v]>
                  (Data (m_aggregateCriterionValues this))))
            (<[i := if reset then n else SizeT.add count n]>
               (m_aggregateSampleCounts this))).
Proof.
  intros Hs Hcon Hd Hc. apply contribution_Some in Hcon.
  destruct Hcon as (node & Hnode & Hty & Hv & <-).
  eapply Accumulate_slot; eauto.
Qed.

End Inversion.

(** ** EpochCriterion: differences, neutral element, sentinel *)

Lemma SFadd_zero_r (prec emax : Z) (x : spec_float) :
  x <> S754_zero true -> SFadd prec emax x (S754_zero false) = x.
Proof. destruct x as [[]|[]| |s m e]; try reflexivity; congruence. Qed.

(** X1. Subtracting an earlier snapshot from a later one does not wrap:
    for [size_t] counts with [b]'s count at most [a]'s, the count of [a - b]
    is the integer difference. The difference of a criterion with itself has
    count 0 and hence average +0.0, whatever its value. *)
Theorem minus_in_order (a b : EpochCriterion) :
  SizeT.in_range (second a) -> SizeT.in_range (second b) ->
  second b <= second a ->
  second (Epoch.minus a b) = second a - second b /\
  second (Epoch.minus a a) = 0 /\
  Epoch.Average (Epoch.minus a a) = S754_zero false.
Proof.
  unfold SizeT.in_range. intros Ha Hb Hle.
  assert (Hself : second (Epoch.minus a a) = 0).
  { cbn [Epoch.minus second]. unfold SizeT.sub.
    rewrite Z.sub_diag. reflexivity. }
  split; [|split; [exact Hself|]].
  - cbn [Epoch.minus second]. unfold SizeT.sub. apply Z.mod_small. lia.
  - unfold Epoch.Average. rewrite Hself. reflexivity.
Qed.

Lemma minus_in_order_witness :
  second (Epoch.minus (mkEpochCriterion Sample.three_tenths 5) Sample.a) = 4.
Proof.
  destruct (minus_in_order (mkEpochCriterion Sample.three_tenths 5) Sample.a)
    as (H & _); [unfold SizeT.in_range, SizeT.modulus; cbn; lia ..
                | cbn; lia | ].
  rewrite H. reflexivity.
Defined.

(** X2. The sample count survives merging and subtracting again: for a
    [size_t] count of [a], the count of [(a += b) - b] is the count of [a],
    also when the sum in between wrapped around. *)
Theorem merge_minus_count (a b : EpochCriterion) :
  SizeT.in_range (second a) ->
  second (Epoch.minus (Epoch.plus_assign a b) b) = second a.
Proof.
  unfold SizeT.in_range. intros Ha.
  cbn [Epoch.minus Epoch.plus_assign second]. unfold SizeT.sub, SizeT.add.
  rewrite Zminus_mod_idemp_l.
  replace (second a + second b - second b) with (second a) by lia.
  apply Z.mod_small. exact Ha.
Qed.

Lemma merge_minus_count_witness :
  second (Epoch.minus
            (Epoch.plus_assign (mkEpochCriterion Sample.tenth 7)
               (mkEpochCriterion Sample.fifth 18446744073709551615))
            (mkEpochCriterion Sample.fifth 18446744073709551615))
  = 7.
Proof.
  apply (merge_minus_count (mkEpochCriterion Sample.tenth 7)
           (mkEpochCriterion Sample.fifth 18446744073709551615)).
  unfold SizeT.in_range, SizeT.modulus. cbn. lia.
Defined.



(** X4. The sentinel [Infinity()] absorbs what is merged into it: after
    [Infinity() += c] the criterion still satisfies [IsInfinity()] when the
    value of [c] is neither NaN nor -infinity, and satisfies [IsNan()] when it
    is one of the two. *)
Theorem Infinity_absorbs (c : EpochCriterion) :
  (first c <> S754_nan -> first c <> S754_infinity true ->
   Epoch.IsInfinity (Epoch.plus_assign Epoch.Infinity c) = true) /\
  (first c = S754_nan \/ first c = S754_infinity true ->
   Epoch.IsNan (Epoch.plus_assign Epoch.Infinity c) = true).
Proof.
  split.
  - intros Hnan Hinf. unfold Epoch.IsInfinity.
    cbn [Epoch.plus_assign Epoch.Infinity first].
    destruct (first c) as [[]|[]| |s m e]; try reflexivity; congruence.
  - intros [H|H]; unfold Epoch.IsNan;
      cbn [Epoch.plus_assign Epoch.Infinity first]; rewrite H; reflexivity.
Qed.

Lemma Infinity_absorbs_witness :
  Epoch.IsInfinity (Epoch.plus_assign Epoch.Infinity Sample.a) = true /\
  Epoch.IsNan
    (Epoch.plus_assign Epoch.Infinity
       (mkEpochCriterion (S754_infinity true) 1)) = true.
Proof.
  split.
  - apply (proj1 (Infinity_absorbs Sample.a)); vm_compute; discriminate.
  - apply (proj2 (Infinity_absorbs (mkEpochCriterion (S754_infinity true) 1))).
    right. reflexivity.
Defined.

(** ** CriterionAccumulator: construction, bounds and invariants *)

Lemma to_double_zero (E : ElemType) : Elem.to_double E Elem.zero = Double.zero.
Proof. destruct E; reflexivity. Qed.

Lemma to_double_nan (E : ElemType) : Elem.to_double E S754_nan = S754_nan.
Proof. destruct E; reflexivity. Qed.

Lemma GetCriterion_is_Some (E : ElemType) (N : nat)
    (this : CriterionAccumulator) (i : nat) :
  has_slots N this -> (is_Some (GetCriterion E i this) <-> (i < N)%nat).
Proof.
  intros Hs. pose proof Hs as (_ & _ & Hd & Hc).
  rewrite (GetCriterion_slot E N) by exact Hs. split.
  - intros [r Hr].
    destruct (Data (m_aggregateCriterionValues this) !! i) eqn:Hl;
      [|discriminate].
    apply lookup_lt_Some in Hl. lia.
  - intros Hi.
    destruct (slot_lookups N this i Hs Hi) as (t & c & -> & ->).
    cbn. eauto.
Qed.

(** X5. A freshly constructed accumulator for [N] criteria reports the
    default criterion (+0.0, 0) for every slot below [N]; at an index from
    [N] on, neither a snapshot nor an update has a defined result. *)
Theorem fresh_accumulator (E : ElemType) (N i : nat) :
  ((i < N)%nat -> GetCriterion E i (New E N) = Some Epoch.default) /\
  ((N <= i)%nat ->
   GetCriterion E i (New E N) = None /\
   forall reset nodes legacyNumSamples,
     Accumulate E reset nodes i legacyNumSamples (New E N) = None).
Proof.
  pose proof (New_has_slots E N) as Hs. split.
  - intros Hi. destruct (New_lookup E N i Hi) as [Hd Hc].
    rewrite (GetCriterion_slot E N) by exact Hs. rewrite Hd, Hc. cbn.
    rewrite to_double_zero. reflexivity.
  - intros Hi. split.
    + destruct (GetCriterion E i (New E N)) eqn:Hg; [|reflexivity].
      assert (is_Some (GetCriterion E i (New E N))) as Hsome by eauto.
      apply (GetCriterion_is_Some E N) in Hsome; [lia | exact Hs].
    + intros reset nodes legacyNumSamples.
      destruct (Accumulate E reset nodes i legacyNumSamples (New E N))
        as [this'|] eqn:Hacc; [|reflexivity].
      destruct (Accumulate_inv E reset N _ _ _ _ _ Hs Hacc)
        as (v & n & total & count & _ & Hd & _).
      apply lookup_lt_Some in Hd. destruct Hs as (_ & _ & Hlen & _). lia.
Qed.

Lemma fresh_accumulator_witness :
  GetCriterion ElemFloat 2 (New ElemFloat 3) = Some Epoch.default /\
  GetCriterion ElemFloat 3 (New ElemFloat 3) = None.
Proof.
  split.
  - apply (proj1 (fresh_accumulator ElemFloat 3 2)). lia.
  - apply (proj2 (fresh_accumulator ElemFloat 3 3)). lia.
Defined.

(** X6. On an accumulator with [N] slots, [Add] and [Assign] have a defined
    result exactly when the index is below [N] and the node vector has, at
    that index, a node of the accumulator's element type whose value has an
    element at position (0,0). *)
Theorem Accumulate_defined_iff (E : ElemType) (reset : bool) (N : nat)
    (this : CriterionAccumulator) (nodes : list ComputationNodeBase)
    (i : nat) (legacyNumSamples : Z) :
  has_slots N this ->
  (is_Some (Accumulate E reset nodes i legacyNumSamples this) <->
   (i < N)%nat /\ is_Some (contribution E i nodes legacyNumSamples)).
Proof.
  intros Hs. split.
  - intros [this' Hacc].
    destruct (Accumulate_inv E reset N _ _ _ _ _ Hs Hacc)
      as (v & n & total & count & Hcon & Hd & _).
    split; [|eauto].
    apply lookup_lt_Some in Hd. destruct Hs as (_ & _ & Hlen & _). lia.
  - intros [Hi [[v n] Hcon]].
    destruct (slot_lookups N this i Hs Hi) as (total & count & Hd & Hc).
    rewrite (Accumulate_of_contribution E reset N this nodes i
               legacyNumSamples v total n count Hs Hcon Hd Hc).
    eauto.
Qed.

Lemma Accumulate_defined_iff_witness :
  is_Some (Assign ElemDouble (Sample.nodes ElemDouble Sample.tenth) 1 3
             (New ElemDouble 2)) /\
  ~ is_Some (Assign ElemDouble (Sample.nodes ElemFloat Sample.tenth) 1 3
               (New ElemDouble 2)) /\
  ~ is_Some (Add ElemDouble (Sample.nodes ElemDouble Sample.tenth) 2 3
               (New ElemDouble 2)).
Proof.
  assert (Hs : has_slots 2 (New ElemDouble 2)) by (repeat split).
  split; [|split].
  - apply (Accumulate_defined_iff ElemDouble true 2 _ _ _ _ Hs).
    split; [lia | vm_compute; eauto].
  - intros H.
    apply (Accumulate_defined_iff ElemDouble true 2 _ _ _ _ Hs) in H.
    destruct H as [_ [x Hx]]. vm_compute in Hx. discriminate.
  - intros H.
    apply (Accumulate_defined_iff ElemDouble false 2 _ _ _ _ Hs) in H.
    lia.
Defined.

(** X7. The number of criteria is fixed at construction: after any
    successful sequence of calls on an accumulator constructed for [N]
    criteria, the totals are still [1 x N], there are [N] counts, and
    [GetCriterion(i)] has a result exactly for the indices below [N]. *)
Theorem slots_fixed (E : ElemType) (N : nat) (cs : list Call)
    (outs : list EpochCriterion) (final : CriterionAccumulator) :
  run E cs (New E N) = Some (outs, final) ->
  has_slots N final /\
  forall i : nat, is_Some (GetCriterion E i final) <-> (i < N)%nat.
Proof.
  intros Hrun.
  assert (Hs : has_slots N final)
    by (eapply run_has_slots; [apply New_has_slots | exact Hrun]).
  split; [exact Hs|]. intros i. apply GetCriterion_is_Some. exact Hs.
Qed.

Lemma slots_fixed_witness :
  has_slots 2
    (mkAccumulator (mkMatrix 1 2 [Sample.tenth; Sample.fifth]) [3; 4]).
Proof.
  apply (slots_fixed ElemDouble 2
           [CallAdd (Sample.nodes ElemDouble Sample.tenth) 0 3;
            CallGetCriterion 0;
            CallAssign [scalar_node ElemDouble Elem.zero;
                        scalar_node ElemDouble Sample.fifth] 1 4]
           [mkEpochCriterion Sample.tenth 3]
           (mkAccumulator (mkMatrix 1 2 [Sample.tenth; Sample.fifth]) [3; 4])).
  reflexivity.
Defined.

(** ** CriterionAccumulator: how updates compose *)

Lemma run_cons_Add (E : ElemType) (nodes : list ComputationNodeBase)
    (i : nat) (n : Z) (cs : list Call) (this s1 final : CriterionAccumulator) :
  Add E nodes i n this = Some s1 ->
  run E cs s1 = Some ([], final) ->
  run E (CallAdd nodes i n :: cs) this = Some ([], final).
Proof.
  intros Hadd Hrun. cbn [run perform]. rewrite Hadd. cbn. rewrite Hrun.
  reflexivity.
Qed.

(** X8. A sequence of [Add]s into slot [i] sums up: if the slot holds the
    total [t] and the [size_t] count [c], and the minibatches contribute the
    values [v1 ... vk] with the counts [n1 ... nk], then all the [Add]s
    succeed and [GetCriterion(i)] is afterwards the pair of
    [((t + v1) + ...) + vk], added from left to right in the arithmetic of
    the element type, and of [c + n1 + ... + nk] modulo 2^64. *)
Theorem Add_sequence (E : ElemType) (N i : nat)
    (minibatches : list (list ComputationNodeBase * Z))
    (contribs : list (spec_float * Z)) :
  Forall2 (fun mb vc => contribution E i mb.1 mb.2 = Some vc)
          minibatches contribs ->
  forall (this : CriterionAccumulator) (total : spec_float) (count : Z),
    has_slots N this ->
    Data (m_aggregateCriterionValues this) !! i = Some total ->
    m_aggregateSampleCounts this !! i = Some count ->
    SizeT.in_range count ->
    exists final,
      run E (adds i minibatches) this = Some ([], final) /\
      GetCriterion E i final
      = Some (mkEpochCriterion
                (Elem.to_double E (foldl (Elem.add E) total (fst <$> contribs)))
                ((count + foldr Z.add 0 (snd <$> contribs))
                   mod SizeT.modulus)).
Proof.
  induction 1 as [|[nodes legacy] [v n] mbs vcs Hcon _ IH];
    intros this total count Hs Hd Hc Hrange.
  - exists this. split; [reflexivity|].
    rewrite (GetCriterion_slot E N) by exact Hs. rewrite Hd, Hc. cbn.
    rewrite Z.add_0_r, Z.mod_small by exact Hrange. reflexivity.
  - cbn [fst snd] in Hcon.
    pose proof (Accumulate_of_contribution E false N this nodes i legacy
                  v total n count Hs Hcon Hd Hc) as Hadd.
    set (s1 := mkAccumulator _ _) in Hadd.
    assert (Hs1 : has_slots N s1)
      by (eapply (Accumulate_has_slots E false); eauto).
    apply lookup_lt_Some in Hd as Hd', Hc as Hc'.
    destruct (IH s1 (Elem.add E total v) (SizeT.add count n) Hs1)
      as (final & Hrun & Hget).
    + subst s1. cbn. apply list_lookup_insert_eq. exact Hd'.
    + subst s1. cbn. apply list_lookup_insert_eq. exact Hc'.
    + apply Z.mod_pos_bound, modulus_pos.
    + exists final. split.
      * unfold adds. cbn [map fst snd]. eapply run_cons_Add; eauto.
      * rewrite Hget. cbn [fmap list_fmap foldl foldr fst snd].
        do 2 f_equal. unfold SizeT.add.
        rewrite Z.add_mod_idemp_l by (pose proof modulus_pos; lia).
        f_equal. lia.
Qed.

Lemma Add_sequence_witness :
  exists final,
    run ElemFloat
      (adds 1 [([scalar_node ElemFloat Elem.zero;
                 scalar_node ElemFloat (Elem.of_Z ElemFloat 2)], 4);
               ([scalar_node ElemFloat Elem.zero;
                 layout_node ElemFloat (Elem.of_Z ElemFloat 3) 6], 9)])
      (New ElemFloat 2) = Some ([], final) /\
    GetCriterion ElemFloat 1 final
    = Some (mkEpochCriterion (Double.of_Z 5) 10).
Proof.
  assert (Hcon :
            Forall2 (fun mb vc => contribution ElemFloat 1 mb.1 mb.2 = Some vc)
              [([scalar_node ElemFloat Elem.zero;
                 scalar_node ElemFloat (Elem.of_Z ElemFloat 2)], 4);
               ([scalar_node ElemFloat Elem.zero;
                 layout_node ElemFloat (Elem.of_Z ElemFloat 3) 6], 9)]
              [(Elem.of_Z ElemFloat 2, 4); (Elem.of_Z ElemFloat 3, 6)])
    by (repeat constructor).
  destruct (Add_sequence ElemFloat 2 1 _ _ Hcon (New ElemFloat 2) Elem.zero 0)
    as (final & Hrun & Hget).
  - repeat split.
  - reflexivity.
  - reflexivity.
  - unfold SizeT.in_range, SizeT.modulus. lia.
  - exists final. split; [exact Hrun|]. rewrite Hget. reflexivity.
Defined.

(** X9. [Assign] is idempotent: repeating a successful [Assign] with the
    same arguments leaves the accumulator as the first one left it. *)
Theorem Assign_idempotent (E : ElemType) (N : nat)
    (this s1 : CriterionAccumulator) (nodes : list ComputationNodeBase)
    (i : nat) (legacyNumSamples : Z) :
  has_slots N this ->
  Assign E nodes i legacyNumSamples this = Some s1 ->
  Assign E nodes i legacyNumSamples s1 = Some s1.
Proof.
  intros Hs Hasg. unfold Assign in *.
  destruct (Accumulate_inv E true N _ _ _ _ _ Hs Hasg)
    as (v & n & total & count & Hcon & Hd & Hc & ->).
  assert (Hs1 : has_slots N
                  (mkAccumulator
                     (mkMatrix 1 N
                        (<[i:=v]> (Data (m_aggregateCriterionValues this))))
                     (<[i:=n]> (m_aggregateSampleCounts this))))
    by (eapply (Accumulate_has_slots E true); eauto).
  apply lookup_lt_Some in Hd, Hc.
  rewrite (Accumulate_of_contribution E true N _ nodes i legacyNumSamples
             v v n n Hs1 Hcon);
    cbn [m_aggregateCriterionValues m_aggregateSampleCounts Data].
  - rewrite !list_insert_insert_eq. reflexivity.
  - apply list_lookup_insert_eq. exact Hd.
  - apply list_lookup_insert_eq. exact Hc.
Qed.

Lemma Assign_idempotent_witness :
  Assign ElemDouble (Sample.nodes ElemDouble Sample.tenth) 0 3
    (mkAccumulator (mkMatrix 1 2 [Sample.tenth; Sample.fifth]) [3; 4])
  = Some (mkAccumulator (mkMatrix 1 2 [Sample.tenth; Sample.fifth]) [3; 4]).
Proof.
  apply (Assign_idempotent ElemDouble 2
           (mkAccumulator (mkMatrix 1 2 [Sample.fifth; Sample.fifth]) [9; 4])).
  - repeat split.
  - reflexivity.
Defined.

(** X10. Updates of different slots commute: if an update of slot [i]
    followed by an update of slot [j], with [i] and [j] different, succeeds
    on an accumulator with [N] slots, then the two updates in the other
    order succeed too and leave the same accumulator. *)
Theorem updates_commute (E : ElemType) (N : nat) (reset1 reset2 : bool)
    (this s1 s12 : CriterionAccumulator)
    (nodes1 nodes2 : list ComputationNodeBase) (i j : nat)
    (legacy1 legacy2 : Z) :
  has_slots N this -> i <> j ->
  Accumulate E reset1 nodes1 i legacy1 this = Some s1 ->
  Accumulate E reset2 nodes2 j legacy2 s1 = Some s12 ->
  exists s2,
    Accumulate E reset2 nodes2 j legacy2 this = Some s2 /\
    Accumulate E reset1 nodes1 i legacy1 s2 = Some s12.
Proof.
  intros Hs Hij H1 H2.
  assert (Hs1 : has_slots N s1) by (eapply Accumulate_has_slots; eauto).
  destruct (Accumulate_inv E reset1 N _ _ _ _ _ Hs H1)
    as (v1 & n1 & t1 & c1 & Hcon1 & Hd1 & Hc1 & ->).
  destruct (Accumulate_inv E reset2 N _ _ _ _ _ Hs1 H2)
    as (v2 & n2 & t2 & c2 & Hcon2 & Hd2 & Hc2 & ->).
  cbn [m_aggregateCriterionValues m_aggregateSampleCounts Data] in *.
  rewrite list_lookup_insert_ne in Hd2 by exact Hij.
  rewrite list_lookup_insert_ne in Hc2 by exact Hij.
  pose proof (Accumulate_of_contribution E reset2 N this nodes2 j legacy2
                v2 t2 n2 c2 Hs Hcon2 Hd2 Hc2) as Hfirst.
  eexists. split; [exact Hfirst|].
  rewrite (Accumulate_of_contribution E reset1 N _ nodes1 i legacy1
             v1 t1 n1 c1);
    cbn [m_aggregateCriterionValues m_aggregateSampleCounts Data].
  - rewrite !(list_insert_insert_ne _ i j) by exact Hij. reflexivity.
  - eapply (Accumulate_has_slots E reset2); [exact Hs | exact Hfirst].
  - exact Hcon1.
  - rewrite list_lookup_insert_ne by congruence. exact Hd1.
  - rewrite list_lookup_insert_ne by congruence. exact Hc1.
Qed.

Lemma updates_commute_witness :
  exists s2,
    Assign ElemDouble (Sample.nodes ElemDouble Sample.fifth) 1 4
      (New ElemDouble 2) = Some s2 /\
    Add ElemDouble (Sample.nodes ElemDouble Sample.tenth) 0 3 s2
    = Some (mkAccumulator (mkMatrix 1 2 [Sample.tenth; Elem.zero]) [3; 4]).
Proof.
  apply (updates_commute ElemDouble 2 false true (New ElemDouble 2)
           (mkAccumulator (mkMatrix 1 2 [Sample.tenth; Elem.zero]) [3; 0])
           (mkAccumulator (mkMatrix 1 2 [Sample.tenth; Elem.zero]) [3; 4])
           (Sample.nodes ElemDouble Sample.tenth)
           (Sample.nodes ElemDouble Sample.fifth) 0 1 3 4).
  - repeat split.
  - lia.
  - reflexivity.
  - reflexivity.
Defined.

(** ** CriterionAccumulator: NaN, double precision, counts *)

Lemma SFadd_nan (prec emax : Z) (x y : spec_float) :
  x = S754_nan \/ y = S754_nan -> SFadd prec emax x y = S754_nan.
Proof. intros [-> | ->]; [reflexivity | destruct x; reflexivity]. Qed.

(** X11. NaN propagates through [Add]: if the total of slot [i] or the
    value added into it is NaN, the [Add] succeeds and the snapshot of the
    slot satisfies [IsNan()] afterwards. *)
Theorem Add_propagates_nan (E : ElemType) (N : nat)
    (this : CriterionAccumulator) (nodes : list ComputationNodeBase)
    (i : nat) (legacyNumSamples : Z) (v total : spec_float) (n : Z) :
  has_slots N this ->
  contribution E i nodes legacyNumSamples = Some (v, n) ->
  Data (m_aggregateCriterionValues this) !! i = Some total ->
  total = S754_nan \/ v = S754_nan ->
  exists this' r,
    Add E nodes i legacyNumSamples this = Some this' /\
    GetCriterion E i this' = Some r /\
    Epoch.IsNan r = true.
Proof.
  intros Hs Hcon Hd Hnan.
  assert (Hi : (i < N)%nat).
  { apply lookup_lt_Some in Hd. destruct Hs as (_ & _ & Hlen & _). lia. }
  destruct (slot_lookups N this i Hs Hi) as (total' & count & Hd' & Hc).
  pose proof (Accumulate_of_contribution E false N this nodes i
                legacyNumSamples v total n count Hs Hcon Hd Hc) as Hadd.
  eexists. eexists. split; [exact Hadd|]. split.
  - rewrite (GetCriterion_slot E N)
      by (eapply (Accumulate_has_slots E false); eauto).
    apply lookup_lt_Some in Hd, Hc.
    cbn [m_aggregateCriterionValues m_aggregateSampleCounts Data].
    rewrite !list_lookup_insert_eq by assumption. reflexivity.
  - unfold Epoch.IsNan. cbn [first]. unfold Elem.add.
    rewrite SFadd_nan by exact Hnan. rewrite to_double_nan. reflexivity.
Qed.

Lemma Add_propagates_nan_witness :
  exists this' r,
    Add ElemFloat (Sample.nodes ElemFloat S754_nan) 0 8
      (mkAccumulator
         (mkMatrix 1 2 [Elem.of_Z ElemFloat 7; Elem.zero]) [15; 0])
    = Some this' /\
    GetCriterion ElemFloat 0 this' = Some r /\ Epoch.IsNan r = true.
Proof.
  apply (Add_propagates_nan ElemFloat 2 _ _ 0 8 S754_nan
           (Elem.of_Z ElemFloat 7) 8).
  - repeat split.
  - reflexivity.
  - reflexivity.
  - right. reflexivity.
Defined.

(** X12. In an accumulator of doubles, [Add] acts on the snapshot of the
    slot as [+=] does: the snapshot after the [Add] is the snapshot before
    it merged with the criterion made of the added value and its count. *)
Theorem Add_is_plus_assign (N : nat) (this this' : CriterionAccumulator)
    (nodes : list ComputationNodeBase) (i : nat) (legacyNumSamples : Z)
    (before : EpochCriterion) :
  has_slots N this ->
  GetCriterion ElemDouble i this = Some before ->
  Add ElemDouble nodes i legacyNumSamples this = Some this' ->
  exists v n,
    contribution ElemDouble i nodes legacyNumSamples = Some (v, n) /\
    GetCriterion ElemDouble i this'
    = Some (Epoch.plus_assign before (mkEpochCriterion v n)).
Proof.
  intros Hs Hbefore Hadd.
  destruct (Accumulate_inv ElemDouble false N _ _ _ _ _ Hs Hadd)
    as (v & n & total & count & Hcon & Hd & Hc & ->).
  exists v, n. split; [exact Hcon|].
  rewrite (GetCriterion_slot ElemDouble N) in Hbefore by exact Hs.
  rewrite Hd, Hc in Hbefore. cbn in Hbefore. injection Hbefore as <-.
  rewrite (GetCriterion_slot ElemDouble N)
    by (eapply (Accumulate_has_slots ElemDouble false); eauto).
  apply lookup_lt_Some in Hd, Hc.
  cbn [m_aggregateCriterionValues m_aggregateSampleCounts Data].
  rewrite !list_lookup_insert_eq by assumption. reflexivity.
Qed.

Lemma Add_is_plus_assign_witness :
  exists v n,
    contribution ElemDouble 0 (Sample.nodes ElemDouble Sample.fifth) 1
    = Some (v, n) /\
    GetCriterion ElemDouble 0
      (mkAccumulator
         (mkMatrix 1 2 [Double.add Sample.tenth Sample.fifth; Elem.zero])
         [2; 0])
    = Some (Epoch.plus_assign Sample.a (mkEpochCriterion v n)).
Proof.
  apply (Add_is_plus_assign 2
           (mkAccumulator (mkMatrix 1 2 [Sample.tenth; Elem.zero]) [1; 0])).
  - repeat split.
  - reflexivity.
  - reflexivity.
Defined.

Lemma contribution_in_range (E : ElemType) (i : nat)
    (nodes : list ComputationNodeBase) (legacyNumSamples : Z)
    (v : spec_float) (n : Z) :
  SizeT.in_range legacyNumSamples -> Forall node_in_range nodes ->
  contribution E i nodes legacyNumSamples = Some (v, n) ->
  SizeT.in_range n.
Proof.
  intros Hl Hnodes Hcon. apply contribution_Some in Hcon.
  destruct Hcon as (node & Hnode & _ & _ & <-).
  rewrite GetNumSamples_eq.
  pose proof (Forall_lookup_1 _ _ _ _ Hnodes Hnode) as Hn.
  unfold node_in_range in Hn. destruct (GetMBLayout node); assumption.
Qed.

Lemma Accumulate_counts_in_range (E : ElemType) (reset : bool) (N : nat)
    (this this' : CriterionAccumulator)
    (nodes : list ComputationNodeBase) (i : nat) (legacyNumSamples : Z) :
  has_slots N this -> counts_in_range this ->
  SizeT.in_range legacyNumSamples -> Forall node_in_range nodes ->
  Accumulate E reset nodes i legacyNumSamples this = Some this' ->
  counts_in_range this'.
Proof.
  intros Hs Hr Hl Hnodes Hacc.
  destruct (Accumulate_inv E reset N _ _ _ _ _ Hs Hacc)
    as (v & n & total & count & Hcon & _ & _ & ->).
  unfold counts_in_range in *. cbn [m_aggregateSampleCounts].
  apply Forall_insert; [exact Hr|].
  destruct reset.
  - eapply contribution_in_range; eauto.
  - apply Z.mod_pos_bound, modulus_pos.
Qed.

Lemma run_counts_in_range (E : ElemType) (N : nat) (cs : list Call) :
  forall (this final : CriterionAccumulator) (outs : list EpochCriterion),
    has_slots N this -> counts_in_range this ->
    Forall call_in_range cs ->
    run E cs this = Some (outs, final) ->
    counts_in_range final /\
    Forall (fun r => SizeT.in_range (second r)) outs.
Proof.
  induction cs as [|c cs IH]; intros this final outs Hs Hr Hcs Hrun;
    cbn in Hrun.
  - injection Hrun as <- <-. split; [exact Hr | constructor].
  - destruct (perform E c this) as [[o1 s1]|] eqn:Hp; [|discriminate].
    cbn in Hrun.
    destruct (run E cs s1) as [[o2 s2]|] eqn:Hrest; [|discriminate].
    cbn in Hrun. injection Hrun as <- <-.
    apply Forall_cons in Hcs as [Hc Hcs].
    assert (Hs1 : has_slots N s1) by (eapply perform_has_slots; eauto).
    assert (H1 : counts_in_range s1 /\
                 Forall (fun r => SizeT.in_range (second r)) o1).
    { destruct c as [nodes i n|nodes i n|i]; cbn in Hp, Hc.
      - destruct (Add E nodes i n this) as [s|] eqn:Hadd; [|discriminate].
        cbn in Hp. injection Hp as <- <-. destruct Hc as [Hn Hnodes].
        split; [|constructor].
        exact (Accumulate_counts_in_range E false N this s nodes i n
                 Hs Hr Hn Hnodes Hadd).
      - destruct (Assign E nodes i n this) as [s|] eqn:Hasg; [|discriminate].
        cbn in Hp. injection Hp as <- <-. destruct Hc as [Hn Hnodes].
        split; [|constructor].
        exact (Accumulate_counts_in_range E true N this s nodes i n
                 Hs Hr Hn Hnodes Hasg).
      - destruct (GetCriterion E i this) as [r|] eqn:Hget; [|discriminate].
        cbn in Hp. injection Hp as <- <-. split; [exact Hr|].
        constructor; [|constructor].
        rewrite (GetCriterion_slot E N) in Hget by exact Hs.
        destruct (Data (m_aggregateCriterionValues this) !! i);
          [|discriminate].
        destruct (m_aggregateSampleCounts this !! i) as [count|] eqn:Hcount;
          [|discriminate].
        cbn in Hget. injection Hget as <-. cbn [second].
        exact (Forall_lookup_1 _ _ _ _ Hr Hcount). }
    destruct H1 as [Hr1 Ho1].
    destruct (IH s1 s2 o2 Hs1 Hr1 Hcs Hrest) as [Hr2 Ho2].
    split; [exact Hr2|]. apply Forall_app. split; assumption.
Qed.

(** X13. The sample counts stay [size_t] values: when every [Add] and
    [Assign] of a sequence of calls on a freshly constructed accumulator is
    given [size_t] sample counts (the legacy count and the layouts' actual
    counts), every count held by the accumulator afterwards and the count of
    every snapshot handed out on the way lies in [0, 2^64). *)
Theorem counts_stay_in_range (E : ElemType) (N : nat) (cs : list Call)
    (outs : list EpochCriterion) (final : CriterionAccumulator) :
  Forall call_in_range cs ->
  run E cs (New E N) = Some (outs, final) ->
  counts_in_range final /\
  Forall (fun r => SizeT.in_range (second r)) outs.
Proof.
  intros Hcs Hrun.
  eapply (run_counts_in_range E N cs (New E N)); eauto.
  - apply New_has_slots.
  - unfold counts_in_range, New. cbn [m_aggregateSampleCounts].
    apply Forall_replicate. unfold SizeT.in_range, SizeT.modulus. lia.
Qed.

Lemma counts_stay_in_range_witness :
  counts_in_range
    (mkAccumulator (mkMatrix 1 2 [Sample.tenth; Elem.zero]) [2; 0]) /\
  Forall (fun r => SizeT.in_range (second r))
    [mkEpochCriterion Sample.tenth 2].
Proof.
  apply (counts_stay_in_range ElemDouble 2
           [CallAdd (Sample.nodes ElemDouble Sample.tenth) 0
              18446744073709551615;
            CallAdd (Sample.layout_nodes ElemDouble Elem.zero 3) 0 1;
            CallGetCriterion 0]).
  - unfold call_in_range, node_in_range, SizeT.in_range, SizeT.modulus.
    repeat constructor; cbn; lia.
  - reflexivity.
Defined.

(** X14. On a freshly constructed accumulator [Add] and [Assign] do the
    same, provided the contributed value is not -0.0 and the contributed
    count is a [size_t]. *)
Theorem Add_eq_Assign_on_fresh (E : ElemType) (N i : nat)
    (nodes : list ComputationNodeBase) (legacyNumSamples : Z)
    (v : spec_float) (n : Z) :
  (i < N)%nat ->
  contribution E i nodes legacyNumSamples = Some (v, n) ->
  v <> S754_zero true -> SizeT.in_range n ->
  Add E nodes i legacyNumSamples (New E N)
  = Assign E nodes i legacyNumSamples (New E N) /\
  is_Some (Assign E nodes i legacyNumSamples (New E N)).
Proof.
  intros Hi Hcon Hv Hn. unfold Add, Assign.
  destruct (New_lookup E N i Hi) as [Hd Hc].
  pose proof (New_has_slots E N) as Hs.
  rewrite (Accumulate_of_contribution E false N _ nodes i legacyNumSamples
             v Elem.zero n 0 Hs Hcon Hd Hc).
  rewrite (Accumulate_of_contribution E true N _ nodes i legacyNumSamples
             v Elem.zero n 0 Hs Hcon Hd Hc).
  split; [|eauto].
  assert (Hadd : Elem.add E Elem.zero v = v).
  { unfold Elem.add. rewrite SFadd_comm. apply SFadd_zero_r. exact Hv. }
  assert (Hcnt : SizeT.add 0 n = n).
  { rewrite SizeT_add_0_l. apply Z.mod_small. exact Hn. }
  rewrite Hadd, Hcnt. reflexivity.
Qed.

Lemma Add_eq_Assign_on_fresh_witness :
  Add ElemFloat (Sample.layout_nodes ElemFloat (Elem.of_Z ElemFloat 3) 6) 0 9
    (New ElemFloat 2)
  = Assign ElemFloat (Sample.layout_nodes ElemFloat (Elem.of_Z ElemFloat 3) 6)
      0 9 (New ElemFloat 2).
Proof.
  apply (Add_eq_Assign_on_fresh ElemFloat 2 0 _ 9 (Elem.of_Z ElemFloat 3) 6).
  - lia.
  - reflexivity.
  - vm_compute. discriminate.
  - unfold SizeT.in_range, SizeT.modulus. lia.
Defined.
